(** * HarmonyLink: the SQLite data layer of [HarmonyLink.py]

    A shallow embedding of the schema in [SCHEMA_SQL] and of the Python
    functions that run statements against it, followed by the properties of
    the store that the specification states.

    Modelling conventions.
    - Every table of the schema has an [INTEGER PRIMARY KEY], which SQLite
      makes an alias of the rowid: a table is a finite map from the key to
      the remaining columns.
    - A column declared [NOT NULL] has a plain type, a nullable column an
      [option] ([None] is SQL [NULL]); Python [None] bound to a [NOT NULL]
      column is outside the argument types.
    - SQLite integers are taken in [Z], and the functions are modelled on
      the signed 64-bit range [int64] of SQLite.  For an integer argument
      outside it [cur.execute] raises [OverflowError] when it binds the
      argument, and an addition whose result leaves it is carried out in
      floating point and stored as a REAL.  Neither is modelled: a theorem
      that states a normal return or an exact sum has the range of the
      arguments and of the sums among its hypotheses.  The ceiling of the
      rowids is not reached.
    - The clock is an explicit argument [now], in seconds since the epoch;
      [DATE('now')] is the day number [now / 86400], of which the text
      ['YYYY-MM-DD'] that SQLite stores is an injective rendering.
    - The text that [print] writes is left out: a [print_*] function is
      modelled by the list of rows it prints, a [delete_*] function without
      its message. *)

From stdpp Require Import gmap strings list fin_maps sorting.

Open Scope string_scope.
Open Scope Z_scope.

(** ** Rows of the five tables (the key column is the key of the map) *)

Module Users.
Record row := mk {
    name : string;
    email : string;
    password_hash : string;
    created_at : option Z
  }.
End Users.

Module MoodSessions.
Record row := mk {
    user_id : Z;
    stress_level : Z;
    q1_answer : option string;
    q2_answer : option string;
    q3_answer : option string;
    points_earned : Z;
    created_at : option Z
  }.
End MoodSessions.

Module BreathingLevels.
Record row := mk {
    title : string;
    description : option string;
    duration_seconds : Z;
    base_points : Z
  }.
End BreathingLevels.

Module BreathingSessions.
Record row := mk {
    user_id : Z;
    session_id : option Z;
    level_id : Z;
    started_at : option Z;
    completed_at : option Z;
    points_earned : Z
  }.
End BreathingSessions.

Module UserStats.
Record row := mk {
    total_points : Z;
    current_streak_days : Z;
    last_activity_date : option Z
  }.
End UserStats.

(** The tables of a database file that carries the schema.  [sqlite_sequence]
    is SQLite's own table behind [AUTOINCREMENT]: the largest rowid ever
    handed out, per table name. *)
Record database := mkdb {
  users : gmap Z Users.row;
  mood_sessions : gmap Z MoodSessions.row;
  breathing_levels : gmap Z BreathingLevels.row;
  breathing_sessions : gmap Z BreathingSessions.row;
  user_stats : gmap Z UserStats.row;
  sqlite_sequence : gmap string Z
}.

(** The file [harmonylink.db]: [None] is the file without tables that
    [sqlite3.connect] creates, [Some db] a file with the five tables.
    [init_db] is the only code that creates tables, and its script creates
    all five. *)
Abbreviation store := (option database).

(** ** Exceptions of the [sqlite3] module *)

(** The constraint in the message of an [IntegrityError]; a UNIQUE failure
    names the column. *)
Inductive constraint :=
| UNIQUE (column : string)
| CHECK
| FOREIGN_KEY.

Inductive exception :=
| IntegrityError (c : constraint)   (* "... constraint failed" *)
| OperationalError.                 (* "no such table: ..." *)

Inductive result (A : Type) :=
| Ok (a : A)
| Raise (e : exception).
Arguments Ok {A} a.
Arguments Raise {A} e.

(** The names the specification gives to the failures. *)
Definition UniquenessViolation : exception :=
  IntegrityError (UNIQUE "users.email").
Definition ConstraintViolation : exception := IntegrityError CHECK.
Definition ReferentialIntegrity : exception := IntegrityError FOREIGN_KEY.

(** ** Connections *)

(** SQLite enforces foreign keys per connection, and a new connection starts
    with the compile-time default, which is off. *)
Definition SQLITE_DEFAULT_FOREIGN_KEYS : bool := false.

(** A connection: its [foreign_keys] pragma and its view of the file, which
    includes the changes it has not committed. *)
Record connection := mkconn {
  foreign_keys : bool;
  view : store
}.

Definition get_connection (file : store) : connection :=
  {| foreign_keys := SQLITE_DEFAULT_FOREIGN_KEYS; view := file |}.

(** [conn.commit()]: the view of the connection becomes the file. *)
Definition commit (conn : connection) : store := view conn.

(** A statement on the tables, under a setting of the pragma. *)
Definition statement (A : Type) := bool → database → result (A * database).

(** [cur.execute(...)] *)
Definition execute {A} (stmt : statement A) (conn : connection)
  : result (A * connection) :=
  match view conn with
  | None => Raise OperationalError
  | Some db =>
      match stmt (foreign_keys conn) db with
      | Raise e => Raise e
      | Ok (a, db') =>
          Ok (a, {| foreign_keys := foreign_keys conn; view := Some db' |})
      end
  end.

(** ** Helpers of the statements *)

(** The largest rowid of a table, [None] when it is empty. *)
Definition max_rowid {A} (t : gmap Z A) : option Z :=
  map_fold (λ k _ acc, Some (match acc with None => k | Some m => Z.max k m end))
           None t.

Definition seq_of (name : string) (db : database) : Z :=
  default 0 (sqlite_sequence db !! name).

(** The rowid [AUTOINCREMENT] gives to the next row: one more than the
    largest rowid in the table, and more than any rowid handed out before. *)
Definition next_rowid {A} (t : gmap Z A) (seq : Z) : Z :=
  Z.max (match max_rowid t with None => 1 | Some m => m + 1 end) (seq + 1).

(** [DATE('now', '<days> day')] *)
Definition DATE (now : Z) (days : Z) : Z := now / 86400 + days.

(** [CURRENT_TIMESTAMP] *)
Definition CURRENT_TIMESTAMP (now : Z) : option Z := Some now.

(** SQL [=] in a [WHEN]: a comparison with [NULL] is not true. *)
Definition sql_eq (a : option Z) (b : Z) : bool :=
  match a with
  | Some x => bool_decide (x = b)
  | None => false
  end.

(** ** The statements of [SCHEMA_SQL] *)

(** [PRAGMA foreign_keys = ON;] acts on the connection that runs it. *)
Definition PRAGMA_foreign_keys_ON (conn : connection) : connection :=
  {| foreign_keys := true; view := view conn |}.

Definition empty_database : database :=
  {| users := ∅; mood_sessions := ∅; breathing_levels := ∅;
     breathing_sessions := ∅; user_stats := ∅; sqlite_sequence := ∅ |}.

(** The five [CREATE TABLE IF NOT EXISTS] statements. *)
Definition CREATE_TABLES_IF_NOT_EXISTS (conn : connection) : connection :=
  {| foreign_keys := foreign_keys conn;
     view := Some (default empty_database (view conn)) |}.

(** The [VALUES] of the seed statement, in the order of the script. *)
Definition seed_rows : list (Z * BreathingLevels.row) :=
  [ (1, BreathingLevels.mk "Level 1 - Easy"
          (Some "Short and simple breathing exercise.") 60 10);
    (2, BreathingLevels.mk "Level 2 - Light"
          (Some "Slightly longer breathing exercise.") 120 20);
    (3, BreathingLevels.mk "Level 3 - Medium"
          (Some "Moderate breathing exercise.") 180 30);
    (4, BreathingLevels.mk "Level 4 - Hard"
          (Some "Longer and more intense breathing.") 240 40);
    (5, BreathingLevels.mk "Level 5 - Expert"
          (Some "Longest and most challenging exercise.") 300 50) ].

(** [INSERT OR IGNORE] of one row: a row whose [level_id] is taken is
    skipped. *)
Definition insert_or_ignore (kr : Z * BreathingLevels.row)
    (t : gmap Z BreathingLevels.row) : gmap Z BreathingLevels.row :=
  match t !! kr.1 with
  | Some _ => t
  | None => <[kr.1 := kr.2]> t
  end.

Definition with_breathing_levels (t : gmap Z BreathingLevels.row)
    (db : database) : database :=
  {| users := users db; mood_sessions := mood_sessions db;
     breathing_levels := t;
     breathing_sessions := breathing_sessions db;
     user_stats := user_stats db; sqlite_sequence := sqlite_sequence db |}.

Definition INSERT_OR_IGNORE_INTO_breathing_levels : statement unit :=
  λ _ db,
    Ok (tt, with_breathing_levels
              (foldl (λ t kr, insert_or_ignore kr t) (breathing_levels db)
                     seed_rows) db).

(** ** The statements of the functions *)

Definition INSERT_INTO_users (name email password_hash : string) (now : Z)
  : statement Z :=
  λ _ db,
    if decide (map_Exists (λ _ r, Users.email r = email) (users db))
    then Raise (IntegrityError (UNIQUE "users.email"))
    else
      let user_id := next_rowid (users db) (seq_of "users" db) in
      Ok (user_id,
          {| users :=
               <[user_id := Users.mk name email password_hash
                                     (CURRENT_TIMESTAMP now)]> (users db);
             mood_sessions := mood_sessions db;
             breathing_levels := breathing_levels db;
             breathing_sessions := breathing_sessions db;
             user_stats := user_stats db;
             sqlite_sequence := <["users" := user_id]> (sqlite_sequence db) |}).

(** [INSERT INTO user_stats (user_id) VALUES (?)]: the other columns take
    their defaults. *)
Definition INSERT_INTO_user_stats (user_id : Z) : statement Z :=
  λ fk db,
    if decide (is_Some (user_stats db !! user_id))
    then Raise (IntegrityError (UNIQUE "user_stats.user_id"))
    else if fk && bool_decide (users db !! user_id = None)
    then Raise (IntegrityError FOREIGN_KEY)
    else
      Ok (user_id,
          {| users := users db;
             mood_sessions := mood_sessions db;
             breathing_levels := breathing_levels db;
             breathing_sessions := breathing_sessions db;
             user_stats := <[user_id := UserStats.mk 0 0 None]> (user_stats db);
             sqlite_sequence := sqlite_sequence db |}).

Definition INSERT_INTO_mood_sessions (user_id stress_level : Z)
    (q1 q2 q3 : option string) (points_earned : Z) (now : Z) : statement Z :=
  λ fk db,
    if negb ((1 <=? stress_level) && (stress_level <=? 5))
    then Raise (IntegrityError CHECK)
    else if fk && bool_decide (users db !! user_id = None)
    then Raise (IntegrityError FOREIGN_KEY)
    else
      let sid := next_rowid (mood_sessions db) (seq_of "mood_sessions" db) in
      Ok (sid,
          {| users := users db;
             mood_sessions :=
               <[sid := MoodSessions.mk user_id stress_level q1 q2 q3
                          points_earned (CURRENT_TIMESTAMP now)]>
                 (mood_sessions db);
             breathing_levels := breathing_levels db;
             breathing_sessions := breathing_sessions db;
             user_stats := user_stats db;
             sqlite_sequence :=
               <["mood_sessions" := sid]> (sqlite_sequence db) |}).

Definition INSERT_INTO_breathing_sessions (user_id : Z) (session_id : option Z)
    (level_id points_earned : Z) (now : Z) : statement Z :=
  λ fk db,
    if fk && (bool_decide (users db !! user_id = None)
              || bool_decide (breathing_levels db !! level_id = None)
              || match session_id with
                 | Some sid => bool_decide (mood_sessions db !! sid = None)
                 | None => false
                 end)
    then Raise (IntegrityError FOREIGN_KEY)
    else
      let bid := next_rowid (breathing_sessions db)
                            (seq_of "breathing_sessions" db) in
      Ok (bid,
          {| users := users db;
             mood_sessions := mood_sessions db;
             breathing_levels := breathing_levels db;
             breathing_sessions :=
               <[bid := BreathingSessions.mk user_id session_id level_id
                          (CURRENT_TIMESTAMP now) None points_earned]>
                 (breathing_sessions db);
             user_stats := user_stats db;
             sqlite_sequence :=
               <["breathing_sessions" := bid]> (sqlite_sequence db) |}).

(** The [SET] clause of [update_user_stats]: every right-hand side reads the
    row as it was before the statement. *)
Definition SET_user_stats (added_points now : Z) (r : UserStats.row)
  : UserStats.row :=
  {| UserStats.total_points := UserStats.total_points r + added_points;
     UserStats.current_streak_days :=
       if sql_eq (UserStats.last_activity_date r) (DATE now (-1))
       then UserStats.current_streak_days r + 1
       else if sql_eq (UserStats.last_activity_date r) (DATE now 0)
       then UserStats.current_streak_days r
       else 1;
     UserStats.last_activity_date := Some (DATE now 0) |}.

(** [UPDATE user_stats SET ... WHERE user_id = ?]; the value is the number of
    rows the statement changed. *)
Definition UPDATE_user_stats (added_points user_id : Z) (now : Z)
  : statement Z :=
  λ _ db,
    Ok (match user_stats db !! user_id with Some _ => 1 | None => 0 end,
        {| users := users db;
           mood_sessions := mood_sessions db;
           breathing_levels := breathing_levels db;
           breathing_sessions := breathing_sessions db;
           user_stats :=
             alter (SET_user_stats added_points now) user_id (user_stats db);
           sqlite_sequence := sqlite_sequence db |}).

(** [ON DELETE SET NULL] of [breathing_sessions.session_id], for the mood
    sessions [gone] that a statement deletes. *)
Definition ON_DELETE_SET_NULL (gone : gmap Z MoodSessions.row)
    (r : BreathingSessions.row) : BreathingSessions.row :=
  match BreathingSessions.session_id r with
  | Some sid =>
      match gone !! sid with
      | Some _ =>
          BreathingSessions.mk (BreathingSessions.user_id r) None
            (BreathingSessions.level_id r) (BreathingSessions.started_at r)
            (BreathingSessions.completed_at r)
            (BreathingSessions.points_earned r)
      | None => r
      end
  | None => r
  end.

(** [DELETE FROM users WHERE user_id = ?].  With the pragma on, the rows of
    the three child tables that reference the user go with it
    ([ON DELETE CASCADE]), and the links to the mood sessions deleted this
    way are cleared; with the pragma off only [users] changes. *)
Definition DELETE_FROM_users (user_id : Z) : statement Z :=
  λ fk db,
    match users db !! user_id with
    | None => Ok (0, db)
    | Some _ =>
        if fk then
          let gone :=
            filter (λ kr, MoodSessions.user_id kr.2 = user_id)
                   (mood_sessions db) in
          Ok (1,
              {| users := delete user_id (users db);
                 mood_sessions :=
                   filter (λ kr, MoodSessions.user_id kr.2 ≠ user_id)
                          (mood_sessions db);
                 breathing_levels := breathing_levels db;
                 breathing_sessions :=
                   ON_DELETE_SET_NULL gone <$>
                     filter (λ kr, BreathingSessions.user_id kr.2 ≠ user_id)
                            (breathing_sessions db);
                 user_stats := delete user_id (user_stats db);
                 sqlite_sequence := sqlite_sequence db |})
        else
          Ok (1,
              {| users := delete user_id (users db);
                 mood_sessions := mood_sessions db;
                 breathing_levels := breathing_levels db;
                 breathing_sessions := breathing_sessions db;
                 user_stats := user_stats db;
                 sqlite_sequence := sqlite_sequence db |})
    end.

Definition DELETE_FROM_mood_sessions (session_id : Z) : statement Z :=
  λ fk db,
    match mood_sessions db !! session_id with
    | None => Ok (0, db)
    | Some r =>
        Ok (1,
            {| users := users db;
               mood_sessions := delete session_id (mood_sessions db);
               breathing_levels := breathing_levels db;
               breathing_sessions :=
                 if fk
                 then ON_DELETE_SET_NULL {[session_id := r]} <$>
                        breathing_sessions db
                 else breathing_sessions db;
               user_stats := user_stats db;
               sqlite_sequence := sqlite_sequence db |})
    end.

Definition DELETE_FROM_breathing_sessions (breathing_session_id : Z)
  : statement Z :=
  λ _ db,
    Ok (match breathing_sessions db !! breathing_session_id with
        | Some _ => 1 | None => 0 end,
        {| users := users db;
           mood_sessions := mood_sessions db;
           breathing_levels := breathing_levels db;
           breathing_sessions :=
             delete breathing_session_id (breathing_sessions db);
           user_stats := user_stats db;
           sqlite_sequence := sqlite_sequence db |}).

(** [DELETE FROM breathing_levels WHERE level_id = ?].  The foreign key of
    [breathing_sessions.level_id] has no action: with the pragma on, the
    statement fails while a session references the level. *)
Definition DELETE_FROM_breathing_levels (level_id : Z) : statement Z :=
  λ fk db,
    match breathing_levels db !! level_id with
    | None => Ok (0, db)
    | Some _ =>
        if fk && bool_decide
                   (map_Exists (λ _ r, BreathingSessions.level_id r = level_id)
                               (breathing_sessions db))
        then Raise (IntegrityError FOREIGN_KEY)
        else Ok (1, with_breathing_levels
                      (delete level_id (breathing_levels db)) db)
    end.

Definition DELETE_FROM_user_stats (user_id : Z) : statement Z :=
  λ _ db,
    Ok (match user_stats db !! user_id with Some _ => 1 | None => 0 end,
        {| users := users db;
           mood_sessions := mood_sessions db;
           breathing_levels := breathing_levels db;
           breathing_sessions := breathing_sessions db;
           user_stats := delete user_id (user_stats db);
           sqlite_sequence := sqlite_sequence db |}).

(** ** The functions of [HarmonyLink.py]

    Each takes the file and gives the file it leaves and what it returns or
    raises.  A function that raises has not reached [conn.commit()]: what its
    connection changed is dropped with the connection, and the file is as it
    was. *)

Definition init_db (file : store) : store * result unit :=
  let conn := get_connection file in
  let conn := PRAGMA_foreign_keys_ON conn in
  let conn := CREATE_TABLES_IF_NOT_EXISTS conn in
  match execute INSERT_OR_IGNORE_INTO_breathing_levels conn with
  | Raise e => (file, Raise e)
  | Ok (_, conn) => (commit conn, Ok tt)
  end.

Definition create_user (name email password_hash : string) (now : Z)
    (file : store) : store * result Z :=
  let conn := get_connection file in
  match execute (INSERT_INTO_users name email password_hash now) conn with
  | Raise e => (file, Raise e)
  | Ok (user_id, conn) =>
      match execute (INSERT_INTO_user_stats user_id) conn with
      | Raise e => (file, Raise e)
      | Ok (_, conn) => (commit conn, Ok user_id)
      end
  end.

Definition add_mood_session (user_id stress_level : Z)
    (q1 q2 q3 : option string) (points_earned : Z) (now : Z)
    (file : store) : store * result Z :=
  let conn := get_connection file in
  match execute (INSERT_INTO_mood_sessions user_id stress_level q1 q2 q3
                   points_earned now) conn with
  | Raise e => (file, Raise e)
  | Ok (sid, conn) => (commit conn, Ok sid)
  end.

Definition add_breathing_session (user_id level_id : Z)
    (session_id : option Z) (points_earned : Z) (now : Z)
    (file : store) : store * result Z :=
  let conn := get_connection file in
  match execute (INSERT_INTO_breathing_sessions user_id session_id level_id
                   points_earned now) conn with
  | Raise e => (file, Raise e)
  | Ok (bid, conn) => (commit conn, Ok bid)
  end.

Definition update_user_stats (user_id added_points : Z) (now : Z)
    (file : store) : store * result unit :=
  let conn := get_connection file in
  match execute (UPDATE_user_stats added_points user_id now) conn with
  | Raise e => (file, Raise e)
  | Ok (_, conn) => (commit conn, Ok tt)
  end.

(** The five [delete_*] functions have one shape. *)
Definition delete_with (stmt : statement Z) (file : store)
  : store * result unit :=
  let conn := get_connection file in
  match execute stmt conn with
  | Raise e => (file, Raise e)
  | Ok (_, conn) => (commit conn, Ok tt)
  end.

Definition delete_user (user_id : Z) : store → store * result unit :=
  delete_with (DELETE_FROM_users user_id).

Definition delete_mood_session (session_id : Z) : store → store * result unit :=
  delete_with (DELETE_FROM_mood_sessions session_id).

Definition delete_breathing_session (breathing_session_id : Z)
  : store → store * result unit :=
  delete_with (DELETE_FROM_breathing_sessions breathing_session_id).

Definition delete_breathing_level (level_id : Z)
  : store → store * result unit :=
  delete_with (DELETE_FROM_breathing_levels level_id).

Definition delete_user_stats (user_id : Z) : store → store * result unit :=
  delete_with (DELETE_FROM_user_stats user_id).

(** ** Histories of the file *)

(** A call of one of the functions, with the clock reading it sees. *)
Inductive call :=
| Init_db
| Create_user (name email password_hash : string) (now : Z)
| Add_mood_session (user_id stress_level : Z) (q1 q2 q3 : option string)
    (points_earned : Z) (now : Z)
| Add_breathing_session (user_id level_id : Z) (session_id : option Z)
    (points_earned : Z) (now : Z)
| Update_user_stats (user_id added_points : Z) (now : Z)
| Delete_user (user_id : Z)
| Delete_mood_session (session_id : Z)
| Delete_breathing_session (breathing_session_id : Z)
| Delete_breathing_level (level_id : Z)
| Delete_user_stats (user_id : Z).

(** The file a call leaves. *)
Definition run (c : call) (file : store) : store :=
  match c with
  | Init_db => (init_db file).1
  | Create_user n e p now => (create_user n e p now file).1
  | Add_mood_session u s q1 q2 q3 p now =>
      (add_mood_session u s q1 q2 q3 p now file).1
  | Add_breathing_session u l s p now =>
      (add_breathing_session u l s p now file).1
  | Update_user_stats u p now => (update_user_stats u p now file).1
  | Delete_user u => (delete_user u file).1
  | Delete_mood_session s => (delete_mood_session s file).1
  | Delete_breathing_session b => (delete_breathing_session b file).1
  | Delete_breathing_level l => (delete_breathing_level l file).1
  | Delete_user_stats u => (delete_user_stats u file).1
  end.

(** The files the program can produce: from the file without tables, by any
    sequence of calls. *)
Inductive reachable : store → Prop :=
| reachable_new : reachable None
| reachable_run c file : reachable file → reachable (run c file).

(** The sequence of the script's entry point, up to the stats update, with
    one clock reading for its calls. *)
Definition main (now : Z) (file : store) : store :=
  let file := (init_db file).1 in
  match create_user "Moamen User" "moamen@example.com" "hash123" now file with
  | (file, Raise _) => file
  | (file, Ok uid) =>
      match add_mood_session uid 4 (Some "tired") (Some "not good")
              (Some "need rest") 5 now file with
      | (file, Raise _) => file
      | (file, Ok sid) =>
          match add_breathing_session uid 3 (Some sid) 30 now file with
          | (file, Raise _) => file
          | (file, Ok bid) => (update_user_stats uid 30 now file).1
          end
      end
  end.

(** The tables after [init_db] and the first [create_user] of the entry
    point, at clock reading [now]. *)
Definition one_user_db (now : Z) : database :=
  {| users := {[ 1 := Users.mk "Moamen User" "moamen@example.com" "hash123"
                        (Some now) ]};
     mood_sessions := ∅;
     breathing_levels := list_to_map seed_rows;
     breathing_sessions := ∅;
     user_stats := {[ 1 := UserStats.mk 0 0 None ]};
     sqlite_sequence := {[ "users" := 1 ]} |}.

(** What the proofs below show of every file the program can produce: the
    levels are among the seed rows, and no stats row has an id above the
    ids handed out for users. *)
Record invariant (db : database) : Prop := {
  levels_of_seed : breathing_levels db ⊆ list_to_map seed_rows;
  stats_below_seq :
    ∀ k, is_Some (user_stats db !! k) → k ≤ seq_of "users" db
}.

(** ** The listing functions *)

(** Order of two rows by their key. *)
Definition by_rowid {A} (a b : Z * A) : Prop := a.1 ≤ b.1.

Global Instance by_rowid_dec {A} (a b : Z * A) : Decision (by_rowid a b).
Proof. unfold by_rowid. apply _. Defined.

(** [SELECT * FROM <table>] followed by [fetchall()]: the rows of the table,
    each with its key, in the order of the rowid, which is the order in
    which SQLite scans a table. *)
Definition SELECT_FROM {A} (table : database → gmap Z A)
  : statement (list (Z * A)) :=
  λ _ db, Ok (merge_sort by_rowid (map_to_list (table db)), db).

(** The five [print_*] functions have one shape; the value is the list of
    rows that the loop prints, one [dict] a row, after the header.  The
    functions do not commit. *)
Definition print_with {A} (table : database → gmap Z A) (file : store)
  : store * result (list (Z * A)) :=
  let conn := get_connection file in
  match execute (SELECT_FROM table) conn with
  | Raise e => (file, Raise e)
  | Ok (rows, conn) => (file, Ok rows)
  end.

Definition print_users := print_with users.
Definition print_mood_sessions := print_with mood_sessions.
Definition print_breathing_levels := print_with breathing_levels.
Definition print_breathing_sessions := print_with breathing_sessions.
Definition print_user_stats := print_with user_stats.

(** ** Sequences of calls *)

(** The file after the calls of a list, in order. *)
Definition runs (cs : list call) (file : store) : store :=
  foldl (λ f c, run c f) file cs.






(** No two users have the same email. *)
Definition emails_unique (db : database) : Prop :=
  ∀ k1 k2 r1 r2, users db !! k1 = Some r1 → users db !! k2 = Some r2 →
    Users.email r1 = Users.email r2 → k1 = k2.








(** The tables after the inserts of the entry point on a new file, run at
    clock reading [now], with [stats] for the stats row of the user. *)
Definition main_db (now : Z) (stats : UserStats.row) : database :=
  {| users := {[ 1 := Users.mk "Moamen User" "moamen@example.com" "hash123"
                        (Some now) ]};
     mood_sessions :=
       {[ 1 := MoodSessions.mk 1 4 (Some "tired") (Some "not good")
                 (Some "need rest") 5 (Some now) ]};
     breathing_levels := list_to_map seed_rows;
     breathing_sessions :=
       {[ 1 := BreathingSessions.mk 1 (Some 1) 3 (Some now) None 30 ]};
     user_stats := {[ 1 := stats ]};
     sqlite_sequence :=
       <["breathing_sessions" := 1]>
         (<["mood_sessions" := 1]> {[ "users" := 1 ]}) |}.

(** * Properties *)

(** ** Rowids *)

Lemma max_rowid_ge {A} (t : gmap Z A) k x :
  t !! k = Some x → ∃ m, max_rowid t = Some m ∧ k ≤ m.
Proof.
  unfold max_rowid. revert k x.
  induction t as [|i y t Hi Hfold IH] using map_first_key_ind.
  - intros k x H. by rewrite lookup_empty in H.
  - intros k x H. rewrite map_fold_insert_first_key by done.
    destruct (decide (i = k)) as [->|Hne].
    + destruct (map_fold _ None t); eexists; split; try done; lia.
    + rewrite lookup_insert_ne in H by done.
      destruct (IH _ _ H) as (m & -> & Hm).
      eexists; split; [done|lia].
Qed.

Lemma next_rowid_above {A} (t : gmap Z A) seq k x :
  t !! k = Some x → k < next_rowid t seq.
Proof.
  intros H. unfold next_rowid.
  destruct (max_rowid_ge _ _ _ H) as (m & -> & Hm). lia.
Qed.

Lemma next_rowid_fresh {A} (t : gmap Z A) seq :
  t !! next_rowid t seq = None.
Proof.
  destruct (t !! next_rowid t seq) as [x|] eqn:H; [|done].
  apply (next_rowid_above t seq) in H. lia.
Qed.

Lemma next_rowid_seq {A} (t : gmap Z A) seq : seq < next_rowid t seq.
Proof. unfold next_rowid. lia. Qed.

(** ** The seed statement *)

Lemma insert_or_ignore_union kr (t : gmap Z BreathingLevels.row) :
  insert_or_ignore kr t = t ∪ {[kr.1 := kr.2]}.
Proof.
  unfold insert_or_ignore. apply map_eq. intros k.
  destruct (t !! kr.1) as [y|] eqn:H; rewrite lookup_union.
  - destruct (decide (kr.1 = k)) as [<-|Hne].
    + by rewrite H, lookup_singleton_eq.
    + rewrite lookup_singleton_ne by done. by destruct (t !! k).
  - destruct (decide (kr.1 = k)) as [<-|Hne].
    + by rewrite lookup_insert_eq, H, lookup_singleton_eq.
    + rewrite lookup_insert_ne, lookup_singleton_ne by done.
      by destruct (t !! k).
Qed.

Lemma seed_fold l (t : gmap Z BreathingLevels.row) :
  foldl (λ t kr, insert_or_ignore kr t) t l = t ∪ list_to_map l.
Proof.
  revert t. induction l as [|kr l IH]; intros t; simpl.
  - by rewrite (right_id_L ∅ (∪)).
  - rewrite IH, insert_or_ignore_union, insert_union_singleton_l.
    by rewrite (assoc_L (∪)).
Qed.

(** [init_db] in closed form: it cannot raise, creates the tables when the
    file has none, and adds the seed rows whose [level_id] is free. *)
Lemma init_db_eq file :
  init_db file =
    (Some (with_breathing_levels
             (breathing_levels (default empty_database file)
                ∪ list_to_map seed_rows)
             (default empty_database file)), Ok tt).
Proof.
  unfold init_db, execute, INSERT_OR_IGNORE_INTO_breathing_levels,
    CREATE_TABLES_IF_NOT_EXISTS, PRAGMA_foreign_keys_ON, get_connection,
    commit.
  cbn [view foreign_keys]. by rewrite seed_fold.
Qed.

(** ** What every reachable file satisfies *)

Ltac reduce_api :=
  cbn [fst snd view foreign_keys users mood_sessions breathing_levels
       breathing_sessions user_stats sqlite_sequence andb orb negb] in *.

Ltac unfold_api :=
  unfold run, create_user, add_mood_session, add_breathing_session,
    update_user_stats, delete_user, delete_mood_session,
    delete_breathing_session, delete_breathing_level, delete_user_stats,
    delete_with, execute, get_connection, commit,
    INSERT_INTO_users,
    INSERT_INTO_user_stats, INSERT_INTO_mood_sessions,
    INSERT_INTO_breathing_sessions, UPDATE_user_stats, DELETE_FROM_users,
    DELETE_FROM_mood_sessions, DELETE_FROM_breathing_sessions,
    DELETE_FROM_breathing_levels, DELETE_FROM_user_stats,
    with_breathing_levels, SQLITE_DEFAULT_FOREIGN_KEYS in *;
  reduce_api.

(** Case analysis on every test a function makes. *)
Ltac api_cases :=
  unfold_api; repeat (case_match; simplify_eq; reduce_api);
  simplify_eq; reduce_api.

Lemma init_db_invariant file db' :
  (∀ db, file = Some db → invariant db) →
  (init_db file).1 = Some db' → invariant db'.
Proof.
  rewrite init_db_eq. intros Hfile [= <-]. destruct file as [db|]; simpl.
  - destruct (Hfile db eq_refl) as [Hlev Hst]. split; simpl; [|done].
    by rewrite (map_subseteq_union _ _ Hlev).
  - split; simpl.
    + by rewrite (left_id_L ∅ (∪)).
    + intros k [x Hx]. by rewrite lookup_empty in Hx.
Qed.

Lemma run_invariant c file :
  (∀ db, file = Some db → invariant db) →
  ∀ db', run c file = Some db' → invariant db'.
Proof.
  intros Hfile db' Hrun.
  destruct c;
    [change (run Init_db file) with (init_db file).1 in Hrun;
     by eapply init_db_invariant|..];
    (destruct file as [db|]; [|by api_cases]);
    destruct (Hfile db eq_refl) as [Hlev Hst];
    api_cases; try (by split); split; reduce_api; try done;
    unfold seq_of in *; reduce_api.
  - rewrite lookup_insert_eq. simpl.
    intros k [x Hx].
    pose proof (next_rowid_seq (users db) (default 0 (sqlite_sequence db !! "users"))).
    destruct (decide (next_rowid (users db) (default 0 (sqlite_sequence db !! "users")) = k))
      as [<-|Hne]; [lia|].
    rewrite lookup_insert_ne in Hx by done.
    pose proof (Hst k (ex_intro _ x Hx)). lia.
  - by rewrite lookup_insert_ne.
  - by rewrite lookup_insert_ne.
  - intros k [x Hx]. apply Hst.
    rewrite lookup_alter in Hx. case_decide; simplify_eq; [|by eauto].
    destruct (user_stats db !! k); by simplify_eq/=.
  - etrans; [apply delete_subseteq|done].
  - intros k [x Hx]. apply Hst.
    destruct (decide (user_id = k)) as [->|Hne].
    + by rewrite lookup_delete_eq in Hx.
    + rewrite lookup_delete_ne in Hx by done. eauto.
Qed.

Lemma reachable_invariant file :
  reachable file → ∀ db, file = Some db → invariant db.
Proof.
  induction 1 as [|c file _ IH]; [done|].
  intros db. by apply run_invariant.
Qed.

(** ** The stats update *)



(** [update_user_stats] on a file with tables: the statement cannot fail,
    and only the row of [user_id] in [user_stats] is rewritten. *)
Lemma update_user_stats_eq db user_id added_points now :
  update_user_stats user_id added_points now (Some db) =
    (Some {| users := users db;
             mood_sessions := mood_sessions db;
             breathing_levels := breathing_levels db;
             breathing_sessions := breathing_sessions db;
             user_stats :=
               alter (SET_user_stats added_points now) user_id (user_stats db);
             sqlite_sequence := sqlite_sequence db |}, Ok tt).
Proof. reflexivity. Qed.



Example one_user_db_created :
  create_user "Moamen User" "moamen@example.com" "hash123" 1000000
    (init_db None).1 = (Some (one_user_db 1000000), Ok 1).
Proof. vm_compute. reflexivity. Qed.





(** ** The session inserts *)

(** A call other than [update_user_stats] inserts or deletes stats rows at
    most: it leaves the columns of a row that stays as they were. *)
Lemma run_changes_stats c db db' k r r' :
  run c (Some db) = Some db' →
  user_stats db !! k = Some r →
  user_stats db' !! k = Some r' →
  r' ≠ r →
  ∃ added_points now, c = Update_user_stats k added_points now.
Proof.
  intros Hrun Hr Hr' Hne.
  destruct c;
    [change (run Init_db (Some db)) with (init_db (Some db)).1 in Hrun;
     rewrite init_db_eq in Hrun; reduce_api; simplify_eq;
     unfold with_breathing_levels in Hr'; simpl in Hr'; congruence|..];
    api_cases; try congruence.
  - destruct (decide (next_rowid (users db) (seq_of "users" db) = k))
      as [<-|Hk].
    + exfalso. eauto.
    + rewrite lookup_insert_ne in Hr' by done. congruence.
  - destruct (decide (user_id = k)) as [->|Hk]; [by eauto|].
    rewrite lookup_alter_ne in Hr' by done. congruence.
  - apply lookup_delete_Some in Hr' as [_ Hr']. congruence.
Qed.

(** C10. [add_mood_session] and [add_breathing_session] leave the table
    [user_stats] as it was, whatever their arguments and whether they
    succeed or raise: the points of a session are stored on the session row
    only.  Among all the functions, only [update_user_stats] changes the
    columns of a stats row. *)
Theorem add_session_keeps_user_stats (file : store)
    (user_id stress_level level_id : Z) (q1 q2 q3 : option string)
    (session_id : option Z) (points_earned now : Z) :
  user_stats <$>
      (add_mood_session user_id stress_level q1 q2 q3 points_earned now file).1
    = user_stats <$> file
  ∧ user_stats <$>
      (add_breathing_session user_id level_id session_id points_earned now
         file).1
    = user_stats <$> file
  ∧ ∀ c db db' k r r',
      file = Some db →
      run c file = Some db' →
      user_stats db !! k = Some r →
      user_stats db' !! k = Some r' →
      r' ≠ r →
      ∃ added_points now', c = Update_user_stats k added_points now'.
Proof.
  split; [|split].
  - destruct file as [db|]; by api_cases.
  - destruct file as [db|]; by api_cases.
  - intros c db db' k r r' ->. apply run_changes_stats.
Qed.

Lemma add_session_keeps_user_stats_witness :
  user_stats <$>
      (add_mood_session 1 4 (Some "tired") None None 5 1000060
         (Some (one_user_db 1000000))).1
    = Some {[ 1 := UserStats.mk 0 0 None ]}
  ∧ ∃ added_points now',
      Update_user_stats 1 30 1000060 = Update_user_stats 1 added_points now'.
Proof.
  destruct (add_session_keeps_user_stats (Some (one_user_db 1000000))
              1 4 3 (Some "tired") None None None 5 1000060)
    as (Hmood & _ & Honly).
  split; [exact Hmood|].
  apply (Honly (Update_user_stats 1 30 1000060) (one_user_db 1000000)
           (default empty_database
              (run (Update_user_stats 1 30 1000060)
                 (Some (one_user_db 1000000))))
           1 (UserStats.mk 0 0 None) (UserStats.mk 30 1 (Some 11)));
    [reflexivity|vm_compute; reflexivity|vm_compute; reflexivity
    |vm_compute; reflexivity|discriminate].
Defined.

(** ** Creating users *)



(** C9. [create_user] is all or nothing: either it returns an id that was
    free in both tables and the file gains exactly the [users] row and the
    [user_stats] row of that id, or it raises and the file is as it was. *)
Theorem create_user_atomic (file : store) (name email password_hash : string)
    (now : Z) :
  (∃ user_id db db',
      file = Some db
      ∧ create_user name email password_hash now file = (Some db', Ok user_id)
      ∧ users db !! user_id = None
      ∧ user_stats db !! user_id = None
      ∧ users db'
          = <[user_id := Users.mk name email password_hash (Some now)]>
              (users db)
      ∧ user_stats db'
          = <[user_id := UserStats.mk 0 0 None]> (user_stats db)
      ∧ mood_sessions db' = mood_sessions db
      ∧ breathing_sessions db' = breathing_sessions db
      ∧ breathing_levels db' = breathing_levels db)
  ∨ (∃ e, create_user name email password_hash now file = (file, Raise e)).
Proof.
  destruct file as [db|]; [|right; by eexists].
  unfold create_user, execute, INSERT_INTO_users, INSERT_INTO_user_stats.
  cbn [view foreign_keys get_connection commit andb].
  destruct (decide (map_Exists _ _)) as [Hdup|Hfresh]; [right; by eexists|].
  reduce_api.
  destruct (decide (is_Some (user_stats db !! _))) as [Hstats|Hstats];
    [right; by eexists|].
  left. eexists _, db, _. split; [done|]. split; [done|]. reduce_api.
  split; [apply next_rowid_fresh|].
  split; [by apply eq_None_not_Some|]. done.
Qed.

(** The second statement of [create_user] can fail after the first has
    succeeded: on tables with a stats row of id 1 and no user, the [users]
    insert gives id 1, the [user_stats] insert raises, and the user row is
    not in the file. *)
Example create_user_rolls_back :
  let db := mkdb ∅ ∅ ∅ ∅ {[ 1 := UserStats.mk 0 0 None ]} ∅ in
  create_user "a" "a@example.com" "h" 0 (Some db)
    = (Some db, Raise (IntegrityError (UNIQUE "user_stats.user_id")))
  ∧ ∃ conn, execute (INSERT_INTO_users "a" "a@example.com" "h" 0)
              (get_connection (Some db)) = Ok (1, conn).
Proof. split; [vm_compute; reflexivity|]. eexists. vm_compute. reflexivity. Qed.

Lemma one_user_db_reachable : reachable (Some (one_user_db 1000000)).
Proof.
  refine (eq_rect _ reachable
            (reachable_run
               (Create_user "Moamen User" "moamen@example.com" "hash123"
                  1000000) _
               (reachable_run Init_db _ reachable_new)) _ _).
  vm_compute. reflexivity.
Defined.



(** ** Initialisation *)



Lemma seed_rows_NoDup : NoDup seed_rows.*1.
Proof. apply (bool_decide_unpack _). vm_compute. exact I. Qed.



Example delete_breathing_level_then_init :
  ∃ db, run (Delete_breathing_level 3) (Some (one_user_db 1000000)) = Some db
        ∧ breathing_levels db !! 3 = None
        ∧ run Init_db (Some db) = Some (one_user_db 1000000).
Proof. eexists. split; [vm_compute; reflexivity|]. by vm_compute. Qed.

(** ** Foreign keys

    The schema declares the foreign keys and its script turns the pragma on,
    on the connection of [init_db].  Every other function runs its statement
    on a connection of its own, where the pragma has its default. *)

Lemma get_connection_foreign_keys file :
  foreign_keys (get_connection file) = false.
Proof. reflexivity. Qed.

Lemma init_db_connection_foreign_keys file :
  foreign_keys (CREATE_TABLES_IF_NOT_EXISTS
                  (PRAGMA_foreign_keys_ON (get_connection file))) = true.
Proof. reflexivity. Qed.

(** The file after the entry point, run on a new file. *)
Example main_tables :
  ∃ db, main 1000000 None = Some db
    ∧ users db !! 1
        = Some (Users.mk "Moamen User" "moamen@example.com" "hash123"
                  (Some 1000000))
    ∧ mood_sessions db !! 1
        = Some (MoodSessions.mk 1 4 (Some "tired") (Some "not good")
                  (Some "need rest") 5 (Some 1000000))
    ∧ breathing_sessions db !! 1
        = Some (BreathingSessions.mk 1 (Some 1) 3 (Some 1000000) None 30)
    ∧ user_stats db !! 1 = Some (UserStats.mk 30 1 (Some 11)).
Proof. eexists. split; [vm_compute; reflexivity|]. by vm_compute. Qed.

(** [delete_user] changes the table [users] only. *)
Lemma delete_user_tables db user_id :
  ∃ db', delete_user user_id (Some db) = (Some db', Ok tt)
    ∧ users db' = delete user_id (users db)
    ∧ mood_sessions db' = mood_sessions db
    ∧ breathing_sessions db' = breathing_sessions db
    ∧ user_stats db' = user_stats db.
Proof.
  unfold delete_user, delete_with, execute, DELETE_FROM_users.
  cbn [view foreign_keys get_connection SQLITE_DEFAULT_FOREIGN_KEYS].
  destruct (users db !! user_id) eqn:Hu; eexists; (split; [done|]);
    reduce_api; [done|].
  by rewrite delete_id.
Qed.

Lemma ON_DELETE_SET_NULL_user_id gone r :
  BreathingSessions.user_id (ON_DELETE_SET_NULL gone r)
    = BreathingSessions.user_id r.
Proof. unfold ON_DELETE_SET_NULL. by repeat case_match. Qed.

(** The statement of [delete_user], run with the pragma on, cascades. *)
Lemma DELETE_FROM_users_cascade db user_id u :
  users db !! user_id = Some u →
  ∃ db', DELETE_FROM_users user_id true db = Ok (1, db')
    ∧ users db' !! user_id = None
    ∧ (∀ k r, mood_sessions db' !! k = Some r →
              MoodSessions.user_id r ≠ user_id)
    ∧ (∀ k r, breathing_sessions db' !! k = Some r →
              BreathingSessions.user_id r ≠ user_id)
    ∧ user_stats db' !! user_id = None.
Proof.
  intros Hu. unfold DELETE_FROM_users. rewrite Hu.
  eexists. split; [done|]. reduce_api.
  split; [apply lookup_delete_eq|].
  split; [|split; [|apply lookup_delete_eq]].
  - by intros k r [_ ?]%map_lookup_filter_Some.
  - intros k r (r0 & <- & [_ ?]%map_lookup_filter_Some)%lookup_fmap_Some.
    by rewrite ON_DELETE_SET_NULL_user_id.
Qed.

(** C2, on the code.  After the entry point, [delete_user 1] returns
    normally and removes the user row, and the mood session, the breathing
    session and the stats row of user 1 are still in the file. *)
Theorem delete_user_leaves_rows :
  ∃ db db',
    main 1000000 None = Some db
    ∧ is_Some (users db !! 1)
    ∧ delete_user 1 (Some db) = (Some db', Ok tt)
    ∧ users db' !! 1 = None
    ∧ MoodSessions.user_id <$> mood_sessions db' !! 1 = Some 1
    ∧ BreathingSessions.user_id <$> breathing_sessions db' !! 1 = Some 1
    ∧ user_stats db' !! 1 = Some (UserStats.mk 30 1 (Some 11)).
Proof.
  eexists _, _. split; [vm_compute; reflexivity|].
  split; [vm_compute; by eexists|].
  split; [vm_compute; reflexivity|]. by vm_compute.
Qed.

(** [delete_breathing_level] on a file with tables never raises. *)
Lemma delete_breathing_level_tables db level_id :
  ∃ db', delete_breathing_level level_id (Some db) = (Some db', Ok tt)
    ∧ breathing_levels db' = delete level_id (breathing_levels db)
    ∧ breathing_sessions db' = breathing_sessions db.
Proof.
  unfold delete_breathing_level, delete_with, execute,
    DELETE_FROM_breathing_levels.
  cbn [view foreign_keys get_connection SQLITE_DEFAULT_FOREIGN_KEYS andb].
  destruct (breathing_levels db !! level_id) eqn:Hl; eexists;
    (split; [done|]); reduce_api; [done|].
  by rewrite delete_id.
Qed.

(** The statement of [delete_breathing_level], run with the pragma on, is
    refused while a session references the level. *)
Lemma DELETE_FROM_breathing_levels_restrict db level_id l k r :
  breathing_levels db !! level_id = Some l →
  breathing_sessions db !! k = Some r →
  BreathingSessions.level_id r = level_id →
  DELETE_FROM_breathing_levels level_id true db
    = Raise ReferentialIntegrity.
Proof.
  intros Hl Hk Hr. unfold DELETE_FROM_breathing_levels. rewrite Hl.
  cbn [andb]. rewrite bool_decide_eq_true_2; [done|].
  by apply (map_Exists_lookup_2 _ _ k r).
Qed.

(** C3, on the code.  After the entry point, level 3 is referenced by
    breathing session 1; [delete_breathing_level 3] returns normally, the
    level row is gone and the session still names level 3. *)
Theorem delete_breathing_level_leaves_sessions :
  ∃ db db',
    main 1000000 None = Some db
    ∧ is_Some (breathing_levels db !! 3)
    ∧ BreathingSessions.level_id <$> breathing_sessions db !! 1 = Some 3
    ∧ delete_breathing_level 3 (Some db) = (Some db', Ok tt)
    ∧ breathing_levels db' !! 3 = None
    ∧ BreathingSessions.level_id <$> breathing_sessions db' !! 1 = Some 3.
Proof.
  eexists _, _. split; [vm_compute; reflexivity|].
  split; [vm_compute; by eexists|]. split; [by vm_compute|].
  split; [vm_compute; reflexivity|]. by vm_compute.
Qed.

(** [add_mood_session] with a stress level outside 1..5 raises the CHECK
    [IntegrityError] and inserts nothing. *)
Lemma add_mood_session_check db user_id stress_level q1 q2 q3 points_earned
    now :
  ¬ (1 ≤ stress_level ≤ 5) →
  add_mood_session user_id stress_level q1 q2 q3 points_earned now (Some db)
    = (Some db, Raise ConstraintViolation).
Proof.
  intros Hout. unfold add_mood_session, execute, INSERT_INTO_mood_sessions.
  cbn [view foreign_keys get_connection].
  destruct (1 <=? stress_level) eqn:H1, (stress_level <=? 5) eqn:H5;
    cbn [andb negb]; try done.
  apply Z.leb_le in H1, H5. lia.
Qed.

(** [add_mood_session] with a stress level in 1..5 inserts the row under a
    new id and returns the id, whether or not [user_id] is the id of a
    user. *)
Lemma add_mood_session_inserts db user_id stress_level q1 q2 q3 points_earned
    now :
  1 ≤ stress_level ≤ 5 →
  ∃ sid db',
    add_mood_session user_id stress_level q1 q2 q3 points_earned now (Some db)
      = (Some db', Ok sid)
    ∧ mood_sessions db !! sid = None
    ∧ mood_sessions db'
        = <[sid := MoodSessions.mk user_id stress_level q1 q2 q3
                     points_earned (Some now)]> (mood_sessions db)
    ∧ users db' = users db.
Proof.
  intros [H1 H5]. unfold add_mood_session, execute, INSERT_INTO_mood_sessions.
  cbn [view foreign_keys get_connection SQLITE_DEFAULT_FOREIGN_KEYS].
  rewrite (proj2 (Z.leb_le _ _) H1), (proj2 (Z.leb_le _ _) H5).
  cbn [andb negb]. eexists _, _. split; [done|]. reduce_api.
  split; [apply next_rowid_fresh|done].
Qed.

(** The statement of [add_mood_session], run with the pragma on, is refused
    for a [user_id] that is not the id of a user. *)
Lemma INSERT_INTO_mood_sessions_foreign_key db user_id stress_level q1 q2 q3
    points_earned now :
  1 ≤ stress_level ≤ 5 →
  users db !! user_id = None →
  INSERT_INTO_mood_sessions user_id stress_level q1 q2 q3 points_earned now
      true db
    = Raise ReferentialIntegrity.
Proof.
  intros [H1 H5] Hu. unfold INSERT_INTO_mood_sessions.
  rewrite (proj2 (Z.leb_le _ _) H1), (proj2 (Z.leb_le _ _) H5).
  cbn [andb negb]. by rewrite bool_decide_eq_true_2.
Qed.

(** C4, on the code.  With one user, of id 1, in the file,
    [add_mood_session] for user 42 and stress level 3 returns a session id,
    and the row that names user 42 is in the file. *)
Theorem add_mood_session_unknown_user :
  ∃ db',
    users (one_user_db 1000000) !! 42 = None
    ∧ add_mood_session 42 3 None None None 0 1000060
          (Some (one_user_db 1000000))
        = (Some db', Ok 1)
    ∧ users db' !! 42 = None
    ∧ mood_sessions db' !! 1
        = Some (MoodSessions.mk 42 3 None None None 0 (Some 1000060)).
Proof.
  eexists. split; [by vm_compute|].
  split; [vm_compute; reflexivity|]. by vm_compute.
Qed.

(** * Further properties of the functions *)


(** ** Exceptions *)






(** ** Ids *)

(** A file with tables keeps them, and no call lowers a counter of
    [sqlite_sequence]. *)
Lemma run_seq_mono c db :
  ∃ db', run c (Some db) = Some db'
    ∧ ∀ name, seq_of name db ≤ seq_of name db'.
Proof.
  destruct c;
    [change (run Init_db (Some db)) with (init_db (Some db)).1;
     rewrite init_db_eq; eexists; split; [done|]; intros tbl;
     by unfold seq_of|..];
    api_cases; eexists; (split; [done|]); intros tbl; unfold seq_of;
    reduce_api; try done.
  - destruct (decide ("users" = tbl)) as [<-|Hne].
    + rewrite lookup_insert_eq. simpl.
      pose proof (next_rowid_seq (users db) (seq_of "users" db)).
      unfold seq_of in *. lia.
    + by rewrite lookup_insert_ne.
  - destruct (decide ("mood_sessions" = tbl)) as [<-|Hne].
    + rewrite lookup_insert_eq. simpl.
      pose proof (next_rowid_seq (mood_sessions db)
                    (seq_of "mood_sessions" db)).
      unfold seq_of in *. lia.
    + by rewrite lookup_insert_ne.
  - destruct (decide ("breathing_sessions" = tbl)) as [<-|Hne].
    + rewrite lookup_insert_eq. simpl.
      pose proof (next_rowid_seq (breathing_sessions db)
                    (seq_of "breathing_sessions" db)).
      unfold seq_of in *. lia.
    + by rewrite lookup_insert_ne.
Qed.

Lemma runs_seq_mono cs db :
  ∃ db', runs cs (Some db) = Some db'
    ∧ ∀ name, seq_of name db ≤ seq_of name db'.
Proof.
  revert db. induction cs as [|c cs IH]; intros db.
  - by exists db.
  - destruct (run_seq_mono c db) as (db1 & Hrun & Hmono).
    destruct (IH db1) as (db2 & Hruns & Hmono').
    exists db2. unfold runs in *. cbn [foldl]. rewrite Hrun.
    split; [done|]. intros name. etrans; [apply Hmono|apply Hmono'].
Qed.

(** An insert into a table with [AUTOINCREMENT] returns an id above the
    counter of the table and leaves the counter at the id. *)
Lemma create_user_seq name email password_hash now file file' uid :
  create_user name email password_hash now file = (file', Ok uid) →
  ∃ db db', file = Some db ∧ file' = Some db'
    ∧ seq_of "users" db < uid ∧ seq_of "users" db' = uid.
Proof.
  intros Hrun. destruct file as [db|]; [|done]. api_cases.
  eexists _, _. split; [done|]. split; [done|].
  split; [apply next_rowid_seq|]. unfold seq_of. reduce_api.
  by rewrite lookup_insert_eq.
Qed.

Lemma add_mood_session_seq user_id stress_level q1 q2 q3 points_earned now
    file file' sid :
  add_mood_session user_id stress_level q1 q2 q3 points_earned now file
    = (file', Ok sid) →
  ∃ db db', file = Some db ∧ file' = Some db'
    ∧ seq_of "mood_sessions" db < sid ∧ seq_of "mood_sessions" db' = sid.
Proof.
  intros Hrun. destruct file as [db|]; [|done]. api_cases.
  eexists _, _. split; [done|]. split; [done|].
  split; [apply next_rowid_seq|]. unfold seq_of. reduce_api.
  by rewrite lookup_insert_eq.
Qed.

Lemma add_breathing_session_seq user_id level_id session_id points_earned now
    file file' bid :
  add_breathing_session user_id level_id session_id points_earned now file
    = (file', Ok bid) →
  ∃ db db', file = Some db ∧ file' = Some db'
    ∧ seq_of "breathing_sessions" db < bid
    ∧ seq_of "breathing_sessions" db' = bid.
Proof.
  intros Hrun. destruct file as [db|]; [|done]. api_cases.
  eexists _, _. split; [done|]. split; [done|].
  split; [apply next_rowid_seq|]. unfold seq_of. reduce_api.
  by rewrite lookup_insert_eq.
Qed.

(** X3. [create_user] never returns an id a second time: an id it returns
    later, after any calls in between (deletions of users among them), is
    larger. *)
Theorem create_user_id_not_reused (file file1 file2 : store) (cs : list call)
    (name email password_hash name' email' password_hash' : string)
    (now now' uid uid' : Z) :
  create_user name email password_hash now file = (file1, Ok uid) →
  create_user name' email' password_hash' now' (runs cs file1)
    = (file2, Ok uid') →
  uid < uid'.
Proof.
  intros (db & db1 & -> & -> & _ & Hseq)%create_user_seq Hsecond.
  destruct (runs_seq_mono cs db1) as (db2 & Hruns & Hmono).
  rewrite Hruns in Hsecond.
  apply create_user_seq in Hsecond as (? & _ & [= <-] & _ & Hlt & _).
  specialize (Hmono "users"). lia.
Qed.

Lemma create_user_id_not_reused_witness :
  ∃ file2,
    create_user "Moamen User" "moamen@example.com" "hash123" 1000000
        (init_db None).1
      = (Some (one_user_db 1000000), Ok 1)
    ∧ create_user "Second" "second@example.com" "hash456" 1000060
          (runs [Delete_user 1; Delete_user_stats 1]
             (Some (one_user_db 1000000)))
        = (file2, Ok 2)
    ∧ 1 < 2.
Proof.
  eexists.
  assert (H1 : create_user "Moamen User" "moamen@example.com" "hash123"
                 1000000 (init_db None).1
               = (Some (one_user_db 1000000), Ok 1))
    by (vm_compute; reflexivity).
  split; [exact H1|].
  assert (H2 : create_user "Second" "second@example.com" "hash456" 1000060
                 (runs [Delete_user 1; Delete_user_stats 1]
                    (Some (one_user_db 1000000)))
               = ((create_user "Second" "second@example.com" "hash456"
                     1000060
                     (runs [Delete_user 1; Delete_user_stats 1]
                        (Some (one_user_db 1000000)))).1, Ok 2))
    by (vm_compute; reflexivity).
  split; [exact H2|].
  exact (create_user_id_not_reused _ _ _ _ _ _ _ _ _ _ _ _ _ _ H1 H2).
Defined.

(** X4. [add_mood_session] and [add_breathing_session] never return an id a
    second time either: an id returned later, after any calls in between,
    is larger. *)
Theorem session_id_not_reused (file file1 file2 : store) (cs : list call)
    (user_id stress_level level_id user_id' stress_level' level_id' : Z)
    (q1 q2 q3 q1' q2' q3' : option string) (session_id session_id' : option Z)
    (points_earned points_earned' now now' id id' : Z) :
  (add_mood_session user_id stress_level q1 q2 q3 points_earned now file
     = (file1, Ok id) →
   add_mood_session user_id' stress_level' q1' q2' q3' points_earned' now'
       (runs cs file1) = (file2, Ok id') →
   id < id')
  ∧ (add_breathing_session user_id level_id session_id points_earned now file
       = (file1, Ok id) →
     add_breathing_session user_id' level_id' session_id' points_earned' now'
         (runs cs file1) = (file2, Ok id') →
     id < id').
Proof.
  split.
  - intros (db & db1 & -> & -> & _ & Hseq)%add_mood_session_seq Hsecond.
    destruct (runs_seq_mono cs db1) as (db2 & Hruns & Hmono).
    rewrite Hruns in Hsecond.
    apply add_mood_session_seq in Hsecond as (? & _ & [= <-] & _ & Hlt & _).
    specialize (Hmono "mood_sessions"). lia.
  - intros (db & db1 & -> & -> & _ & Hseq)%add_breathing_session_seq Hsecond.
    destruct (runs_seq_mono cs db1) as (db2 & Hruns & Hmono).
    rewrite Hruns in Hsecond.
    apply add_breathing_session_seq in Hsecond
      as (? & _ & [= <-] & _ & Hlt & _).
    specialize (Hmono "breathing_sessions"). lia.
Qed.

Lemma session_id_not_reused_witness :
  ∃ file1 file2,
    add_mood_session 1 4 None None None 5 1000000
        (Some (one_user_db 1000000)) = (file1, Ok 1)
    ∧ add_mood_session 1 2 None None None 0 1000060
        (runs [Delete_mood_session 1] file1) = (file2, Ok 2)
    ∧ 1 < 2.
Proof.
  eexists _, _.
  assert (H1 : add_mood_session 1 4 None None None 5 1000000
                 (Some (one_user_db 1000000))
               = ((add_mood_session 1 4 None None None 5 1000000
                     (Some (one_user_db 1000000))).1, Ok 1))
    by (vm_compute; reflexivity).
  split; [exact H1|].
  assert (H2 : add_mood_session 1 2 None None None 0 1000060
                 (runs [Delete_mood_session 1]
                    (add_mood_session 1 4 None None None 5 1000000
                       (Some (one_user_db 1000000))).1)
               = ((add_mood_session 1 2 None None None 0 1000060
                     (runs [Delete_mood_session 1]
                        (add_mood_session 1 4 None None None 5 1000000
                           (Some (one_user_db 1000000))).1)).1, Ok 2))
    by (vm_compute; reflexivity).
  split; [exact H2|].
  exact (proj1 (session_id_not_reused _ _ _ _ _ _ 3 _ _ 3 _ _ _ _ _ _ None None
                  _ _ _ _ _ _) H1 H2).
Defined.

(** ** What the rows of a reachable file satisfy *)

Lemma reachable_db_ind (P : database → Prop) :
  (∀ c file db',
      (∀ db, file = Some db → P db) → run c file = Some db' → P db') →
  ∀ file, reachable file → ∀ db, file = Some db → P db.
Proof.
  intros Hstep file Hreach.
  induction Hreach as [|c file _ IH]; [done|].
  intros db. by apply Hstep.
Qed.

Lemma init_db_tables file db' :
  run Init_db file = Some db' →
  users db' = users (default empty_database file)
  ∧ mood_sessions db' = mood_sessions (default empty_database file)
  ∧ breathing_sessions db' = breathing_sessions (default empty_database file)
  ∧ user_stats db' = user_stats (default empty_database file).
Proof.
  change (run Init_db file) with (init_db file).1. rewrite init_db_eq.
  by intros [= <-].
Qed.

Lemma emails_unique_step c file db' :
  (∀ db, file = Some db → emails_unique db) →
  run c file = Some db' → emails_unique db'.
Proof.
  unfold emails_unique. intros IH Hrun.
  destruct c.
  { apply init_db_tables in Hrun as (-> & _).
    destruct file as [db|]; [by apply IH|].
    unfold empty_database;
      cbn [default from_option id users mood_sessions user_stats].
    intros k1 k2 r1 r2 H1. by rewrite lookup_empty in H1. }
  all: destruct file as [db|]; [specialize (IH db eq_refl)|by api_cases];
    api_cases; try done.
  - intros k1 k2 r1 r2 H1 H2 He.
    match goal with H : ¬ map_Exists _ _ |- _ => rename H into Hfresh end.
    apply lookup_insert_Some in H1 as [[<- <-]|[Hk1 H1]];
      apply lookup_insert_Some in H2 as [[<- <-]|[Hk2 H2]]; try done.
    + exfalso. apply Hfresh. by apply (map_Exists_lookup_2 _ _ k2 r2).
    + exfalso. apply Hfresh. by apply (map_Exists_lookup_2 _ _ k1 r1).
    + by eapply IH.
  - intros k1 k2 r1 r2 [_ H1]%lookup_delete_Some [_ H2]%lookup_delete_Some.
    by eapply IH.
Qed.

(** X5. In every file the program can produce, no two users have the same
    email. *)
Theorem reachable_emails_unique (db : database) (k1 k2 : Z)
    (r1 r2 : Users.row) :
  reachable (Some db) →
  users db !! k1 = Some r1 →
  users db !! k2 = Some r2 →
  Users.email r1 = Users.email r2 →
  k1 = k2.
Proof.
  intros Hreach. revert k1 k2 r1 r2.
  change (emails_unique db).
  by apply (reachable_db_ind emails_unique emails_unique_step _ Hreach).
Qed.

Lemma reachable_emails_unique_witness :
  reachable (Some (one_user_db 1000000))
  ∧ users (one_user_db 1000000) !! 1
      = Some (Users.mk "Moamen User" "moamen@example.com" "hash123"
                (Some 1000000))
  ∧ 1 = 1.
Proof.
  assert (H : users (one_user_db 1000000) !! 1
              = Some (Users.mk "Moamen User" "moamen@example.com" "hash123"
                        (Some 1000000))) by (vm_compute; reflexivity).
  split; [exact one_user_db_reachable|]. split; [exact H|].
  exact (reachable_emails_unique _ 1 1 _ _ one_user_db_reachable H H eq_refl).
Defined.

(** X6. In every file the program can produce, the stress level of every
    mood session is between 1 and 5. *)
Theorem reachable_stress_level (db : database) (k : Z)
    (r : MoodSessions.row) :
  reachable (Some db) →
  mood_sessions db !! k = Some r →
  1 ≤ MoodSessions.stress_level r ≤ 5.
Proof.
  intros Hreach. revert k r.
  refine (reachable_db_ind
            (λ db, ∀ k r, mood_sessions db !! k = Some r →
                     1 ≤ MoodSessions.stress_level r ≤ 5)
            _ _ Hreach db eq_refl).
  clear. intros c file db' IH Hrun.
  destruct c.
  { apply init_db_tables in Hrun as (_ & -> & _).
    destruct file as [db|]; [by apply IH|].
    unfold empty_database;
      cbn [default from_option id users mood_sessions user_stats].
    intros k r H. by rewrite lookup_empty in H. }
  all: destruct file as [db|]; [specialize (IH db eq_refl)|by api_cases];
    api_cases; try done.
  - intros key row [[<- <-]|[_ Hrow]]%lookup_insert_Some; [|by eapply IH].
    cbn [MoodSessions.stress_level].
    match goal with Hc : negb _ = false |- _ =>
      apply negb_false_iff, andb_true_iff in Hc as [?%Z.leb_le ?%Z.leb_le]
    end.
    lia.
  - intros key row [_ Hrow]%lookup_delete_Some. by eapply IH.
Qed.

Lemma reachable_stress_level_witness :
  ∃ db, reachable (Some db)
    ∧ mood_sessions db !! 1
        = Some (MoodSessions.mk 1 4 (Some "tired") (Some "not good")
                  (Some "need rest") 5 (Some 1000000))
    ∧ 1 ≤ 4 ≤ 5.
Proof.
  exists (default empty_database
            (run (Add_mood_session 1 4 (Some "tired") (Some "not good")
                    (Some "need rest") 5 1000000)
               (Some (one_user_db 1000000)))).
  assert (Hreach : reachable
            (Some (default empty_database
               (run (Add_mood_session 1 4 (Some "tired") (Some "not good")
                       (Some "need rest") 5 1000000)
                  (Some (one_user_db 1000000)))))).
  { refine (eq_rect _ reachable
              (reachable_run
                 (Add_mood_session 1 4 (Some "tired") (Some "not good")
                    (Some "need rest") 5 1000000) _ one_user_db_reachable)
              _ _).
    vm_compute. reflexivity. }
  assert (Hrow : mood_sessions
            (default empty_database
               (run (Add_mood_session 1 4 (Some "tired") (Some "not good")
                       (Some "need rest") 5 1000000)
                  (Some (one_user_db 1000000)))) !! 1
          = Some (MoodSessions.mk 1 4 (Some "tired") (Some "not good")
                    (Some "need rest") 5 (Some 1000000)))
    by (vm_compute; reflexivity).
  split; [exact Hreach|]. split; [exact Hrow|].
  exact (reachable_stress_level _ 1 _ Hreach Hrow).
Defined.

(** X7. In every file the program can produce, a stats row either has a
    null date, zero points and zero streak (no update yet), or has a date
    and a streak of at least 1. *)
Theorem reachable_stats_rows (db : database) (k : Z) (r : UserStats.row) :
  reachable (Some db) →
  user_stats db !! k = Some r →
  (UserStats.last_activity_date r = None
   ∧ UserStats.total_points r = 0
   ∧ UserStats.current_streak_days r = 0)
  ∨ (∃ day, UserStats.last_activity_date r = Some day
            ∧ 1 ≤ UserStats.current_streak_days r).
Proof.
  intros Hreach. revert k r.
  refine (reachable_db_ind
            (λ db, ∀ k r, user_stats db !! k = Some r →
               (UserStats.last_activity_date r = None
                ∧ UserStats.total_points r = 0
                ∧ UserStats.current_streak_days r = 0)
               ∨ (∃ day, UserStats.last_activity_date r = Some day
                         ∧ 1 ≤ UserStats.current_streak_days r))
            _ _ Hreach db eq_refl).
  clear. intros c file db' IH Hrun.
  destruct c.
  { apply init_db_tables in Hrun as (_ & _ & _ & ->).
    destruct file as [db|]; [by apply IH|].
    unfold empty_database;
      cbn [default from_option id users mood_sessions user_stats].
    intros k r H. by rewrite lookup_empty in H. }
  all: destruct file as [db|]; [specialize (IH db eq_refl)|by api_cases];
    api_cases; try done.
  - intros key row [[<- <-]|[_ Hrow]]%lookup_insert_Some;
      [by left|by eapply IH].
  - intros key row [[-> (r0 & Hrow & ->)]|[_ Hrow]]%lookup_alter_Some;
      [|by eapply IH].
    right. eexists. split; [done|].
    cbn [SET_user_stats UserStats.current_streak_days].
    destruct (IH _ _ Hrow) as [(Hnull & _ & _)|(day & Hday & Hstreak)].
    + rewrite Hnull. by cbn [sql_eq].
    + repeat case_match; lia.
  - intros key row [_ Hrow]%lookup_delete_Some. by eapply IH.
Qed.

Lemma reachable_stats_rows_witness :
  reachable (Some (one_user_db 1000000))
  ∧ user_stats (one_user_db 1000000) !! 1 = Some (UserStats.mk 0 0 None)
  ∧ (((None : option Z) = None ∧ 0 = 0 ∧ 0 = 0)
     ∨ ∃ day, (None : option Z) = Some day ∧ 1 ≤ 0).
Proof.
  assert (H : user_stats (one_user_db 1000000) !! 1
              = Some (UserStats.mk 0 0 None)) by (vm_compute; reflexivity).
  split; [exact one_user_db_reachable|]. split; [exact H|].
  exact (reachable_stats_rows _ 1 _ one_user_db_reachable H).
Defined.

(** X8. No function adds a level or changes one: in every file the program
    can produce, every row of [breathing_levels] is one of the five rows
    of the seed statement. *)
Theorem reachable_levels_seed (db : database) (k : Z)
    (row : BreathingLevels.row) :
  reachable (Some db) →
  breathing_levels db !! k = Some row →
  (k, row) ∈ seed_rows.
Proof.
  intros Hreach Hrow.
  destruct (reachable_invariant _ Hreach db eq_refl) as [Hlev _].
  apply (elem_of_list_to_map _ _ _ seed_rows_NoDup).
  by eapply lookup_weaken.
Qed.

Lemma reachable_levels_seed_witness :
  reachable (Some (one_user_db 1000000))
  ∧ (3, BreathingLevels.mk "Level 3 - Medium"
          (Some "Moderate breathing exercise.") 180 30) ∈ seed_rows.
Proof.
  split; [exact one_user_db_reachable|].
  apply (reachable_levels_seed (one_user_db 1000000) 3 _
           one_user_db_reachable).
  vm_compute. reflexivity.
Defined.

(** ** Streaks over several days *)





(** ** Listing *)

Global Instance by_rowid_total {A} : Total (@by_rowid A).
Proof. intros a b. unfold by_rowid. lia. Qed.

Global Instance by_rowid_transitive {A} : Transitive (@by_rowid A).
Proof. intros a b c. unfold by_rowid. lia. Qed.

Lemma SELECT_rows {A} (m : gmap Z A) :
  let rows := merge_sort by_rowid (map_to_list m) in
  (∀ k r, (k, r) ∈ rows ↔ m !! k = Some r)
  ∧ StronglySorted by_rowid rows
  ∧ NoDup rows.*1
  ∧ length rows = size m.
Proof.
  intros rows.
  assert (Hperm : rows ≡ₚ map_to_list m) by apply merge_sort_Permutation.
  split; [|split; [|split]].
  - intros k r. by rewrite Hperm, elem_of_map_to_list.
  - apply StronglySorted_merge_sort; apply _.
  - rewrite Hperm. apply NoDup_fst_map_to_list.
  - by rewrite Hperm, length_map_to_list.
Qed.

(** X10. On a file with tables, each [print_*] function lists exactly the
    rows of its table, every key once, in ascending order of the key, and
    leaves the file as it is; on a file without tables it raises
    [OperationalError]. *)
Theorem print_with_rows {A} (table : database → gmap Z A) (db : database) :
  print_with table None = (None, Raise OperationalError)
  ∧ ∃ rows,
      print_with table (Some db) = (Some db, Ok rows)
      ∧ (∀ k r, (k, r) ∈ rows ↔ table db !! k = Some r)
      ∧ StronglySorted (λ a b, a.1 ≤ b.1) rows
      ∧ NoDup rows.*1
      ∧ length rows = size (table db).
Proof.
  split; [done|]. eexists. split; [reflexivity|].
  apply (SELECT_rows (table db)).
Qed.

(** A row whose key is the largest of the table is listed last. *)
Lemma SELECT_last {A} (m : gmap Z A) k r :
  m !! k = Some r →
  (∀ k' r', m !! k' = Some r' → k' ≤ k) →
  last (merge_sort by_rowid (map_to_list m)) = Some (k, r).
Proof.
  intros Hk Hmax.
  destruct (SELECT_rows m) as (Hin & Hsorted & _ & _).
  set (rows := merge_sort by_rowid (map_to_list m)) in *.
  assert (Hne : rows ≠ []).
  { intros Hnil. apply (proj2 (Hin _ _)) in Hk. rewrite Hnil in Hk.
    by inv Hk. }
  apply last_is_Some in Hne as [[k0 r0] Hlast].
  rewrite Hlast. f_equal.
  apply last_Some in Hlast as [front Hrows].
  assert (Hk0 : m !! k0 = Some r0).
  { apply Hin. rewrite Hrows. apply elem_of_app. right.
    by apply list_elem_of_singleton. }
  assert (k0 = k) as ->.
  { pose proof (Hmax _ _ Hk0) as Hle.
    apply (proj2 (Hin _ _)) in Hk. rewrite Hrows in Hk, Hsorted.
    apply elem_of_app in Hk as [Hfront|Hend].
    - apply StronglySorted_app in Hsorted as (Hlt & _ & _).
      specialize (Hlt (k, r) (k0, r0) Hfront).
      unfold by_rowid in Hlt. cbn [fst] in Hlt.
      assert (k ≤ k0) by (by apply Hlt, list_elem_of_singleton). lia.
    - apply list_elem_of_singleton in Hend. congruence. }
  congruence.
Qed.

(** X11. A row that [create_user], [add_mood_session] or
    [add_breathing_session] has just inserted is the last row of the
    listing of its table. *)
Theorem inserted_row_listed_last (file file' : store) (id : Z)
    (name email password_hash : string)
    (user_id stress_level level_id points_earned now : Z)
    (q1 q2 q3 : option string) (session_id : option Z) :
  (create_user name email password_hash now file = (file', Ok id) →
   ∃ rows, print_users file' = (file', Ok rows)
     ∧ last rows
         = Some (id, Users.mk name email password_hash (Some now)))
  ∧ (add_mood_session user_id stress_level q1 q2 q3 points_earned now file
       = (file', Ok id) →
     ∃ rows, print_mood_sessions file' = (file', Ok rows)
       ∧ last rows
           = Some (id, MoodSessions.mk user_id stress_level q1 q2 q3
                         points_earned (Some now)))
  ∧ (add_breathing_session user_id level_id session_id points_earned now file
       = (file', Ok id) →
     ∃ rows, print_breathing_sessions file' = (file', Ok rows)
       ∧ last rows
           = Some (id, BreathingSessions.mk user_id session_id level_id
                         (Some now) None points_earned)).
Proof.
  split; [|split]; intros Hrun; (destruct file as [db|]; [|done]);
    api_cases; (eexists; split; [reflexivity|]); reduce_api;
    (apply SELECT_last; [apply lookup_insert_eq|]);
    intros k' r' [[<- _]|[_ Hk']]%lookup_insert_Some; try lia;
    eapply Z.lt_le_incl, next_rowid_above, Hk'.
Qed.

Lemma inserted_row_listed_last_witness :
  ∃ file' rows,
    add_mood_session 1 4 None None None 5 1000060
        (Some (one_user_db 1000000)) = (file', Ok 1)
    ∧ print_mood_sessions file' = (file', Ok rows)
    ∧ last rows
        = Some (1, MoodSessions.mk 1 4 None None None 5 (Some 1000060)).
Proof.
  assert (Hrun : add_mood_session 1 4 None None None 5 1000060
                   (Some (one_user_db 1000000))
                 = ((add_mood_session 1 4 None None None 5 1000060
                       (Some (one_user_db 1000000))).1, Ok 1))
    by (vm_compute; reflexivity).
  destruct (proj1 (proj2 (inserted_row_listed_last
              (Some (one_user_db 1000000)) _ 1 "" "" "" 1 4 3 5 1000060
              None None None None)) Hrun) as (rows & Hprint & Hlast).
  eexists _, rows. split; [exact Hrun|]. split; [exact Hprint|exact Hlast].
Defined.

(** ** Creating and deleting *)





(** X13. Undoing [create_user] takes two calls: [delete_user] of the new id
    leaves its stats row in the file, and [delete_user_stats] after it
    brings both tables back to what they were; the counter of user ids
    stays at the new id. *)
Theorem create_user_undo (file file1 : store) (uid : Z)
    (name email password_hash : string) (now : Z) :
  create_user name email password_hash now file = (file1, Ok uid) →
  ∃ db db2 db3,
    file = Some db
    ∧ delete_user uid file1 = (Some db2, Ok tt)
    ∧ users db2 = users db
    ∧ user_stats db2 !! uid = Some (UserStats.mk 0 0 None)
    ∧ user_stats db !! uid = None
    ∧ delete_user_stats uid (Some db2) = (Some db3, Ok tt)
    ∧ users db3 = users db
    ∧ user_stats db3 = user_stats db
    ∧ mood_sessions db3 = mood_sessions db
    ∧ breathing_sessions db3 = breathing_sessions db
    ∧ breathing_levels db3 = breathing_levels db
    ∧ seq_of "users" db3 = uid
    ∧ seq_of "users" db < uid.
Proof.
  intros Hrun. destruct file as [db|]; [|done]. api_cases;
    [|match goal with H : <[_:=_]> _ !! _ = None |- _ =>
        by rewrite lookup_insert_eq in H end].
  match goal with n : ¬ is_Some _ |- _ =>
    pose proof (proj2 (eq_None_not_Some _) n) as Hstats end.
  pose proof (next_rowid_fresh (users db) (seq_of "users" db)) as Husers.
  eexists db, _, _. split; [done|].
  split; [done|]. reduce_api.
  split; [by rewrite delete_insert_id|].
  split; [by rewrite lookup_insert_eq|]. split; [done|].
  split; [done|]. reduce_api.
  split; [by rewrite delete_insert_id|].
  split; [by rewrite delete_insert_id|].
  do 3 (split; [done|]).
  unfold seq_of; reduce_api. rewrite lookup_insert_eq. simpl.
  split; [done|]. apply next_rowid_seq.
Qed.

Lemma create_user_undo_witness :
  ∃ file1 db2,
    create_user "Second" "second@example.com" "hash456" 1000060
        (Some (one_user_db 1000000)) = (file1, Ok 2)
    ∧ delete_user 2 file1 = (Some db2, Ok tt)
    ∧ user_stats db2 !! 2 = Some (UserStats.mk 0 0 None).
Proof.
  assert (Hrun : create_user "Second" "second@example.com" "hash456" 1000060
                   (Some (one_user_db 1000000))
                 = ((create_user "Second" "second@example.com" "hash456"
                       1000060 (Some (one_user_db 1000000))).1, Ok 2))
    by (vm_compute; reflexivity).
  destruct (create_user_undo _ _ _ _ _ _ _ Hrun)
    as (db & db2 & db3 & _ & Hdel & _ & Hstats & _).
  eexists _, db2. split; [exact Hrun|]. split; [exact Hdel|exact Hstats].
Defined.

(** X14. A session that [add_mood_session] or [add_breathing_session] has
    inserted and the matching [delete_*] function then deletes leaves all
    five tables as they were before the insert; only the counter of the
    table keeps the id, which is not handed out again. *)
Theorem session_add_delete (db : database) (file1 : store) (id : Z)
    (user_id stress_level level_id points_earned now : Z)
    (q1 q2 q3 : option string) (session_id : option Z) :
  (add_mood_session user_id stress_level q1 q2 q3 points_earned now (Some db)
     = (file1, Ok id) →
   ∃ db2, delete_mood_session id file1 = (Some db2, Ok tt)
     ∧ users db2 = users db ∧ mood_sessions db2 = mood_sessions db
     ∧ breathing_levels db2 = breathing_levels db
     ∧ breathing_sessions db2 = breathing_sessions db
     ∧ user_stats db2 = user_stats db
     ∧ seq_of "mood_sessions" db < id
     ∧ seq_of "mood_sessions" db2 = id)
  ∧ (add_breathing_session user_id level_id session_id points_earned now
       (Some db) = (file1, Ok id) →
     ∃ db2, delete_breathing_session id file1 = (Some db2, Ok tt)
       ∧ users db2 = users db ∧ mood_sessions db2 = mood_sessions db
       ∧ breathing_levels db2 = breathing_levels db
       ∧ breathing_sessions db2 = breathing_sessions db
       ∧ user_stats db2 = user_stats db
       ∧ seq_of "breathing_sessions" db < id
       ∧ seq_of "breathing_sessions" db2 = id).
Proof.
  split; intros Hrun; api_cases;
    try match goal with H : <[_:=_]> _ !! _ = None |- _ =>
          by rewrite lookup_insert_eq in H end;
    (eexists; split; [done|]); reduce_api;
    rewrite delete_insert_id by apply next_rowid_fresh;
    do 5 (split; [done|]);
    (split; [apply next_rowid_seq|]);
    unfold seq_of; reduce_api; by rewrite lookup_insert_eq.
Qed.

Lemma session_add_delete_witness :
  ∃ file1 db2,
    add_breathing_session 1 3 None 30 1000060 (Some (one_user_db 1000000))
      = (file1, Ok 1)
    ∧ delete_breathing_session 1 file1 = (Some db2, Ok tt)
    ∧ breathing_sessions db2 = breathing_sessions (one_user_db 1000000)
    ∧ seq_of "breathing_sessions" db2 = 1.
Proof.
  assert (Hrun : add_breathing_session 1 3 None 30 1000060
                   (Some (one_user_db 1000000))
                 = ((add_breathing_session 1 3 None 30 1000060
                       (Some (one_user_db 1000000))).1, Ok 1))
    by (vm_compute; reflexivity).
  destruct (proj2 (session_add_delete (one_user_db 1000000) _ 1 1 4 3 30
                     1000060 None None None None) Hrun)
    as (db2 & Hdel & _ & _ & _ & Hb & _ & _ & Hseq).
  by eexists _, db2.
Defined.





(** ** The entry point *)

(** X17. The entry point on a new file, at any clock reading: the first
    user, mood session and breathing session get id 1, and the stats row
    of the user holds 30 points, streak 1 and the day of the run.  A second
    run of the entry point adds nothing: its [create_user] raises the
    UNIQUE failure of the email, and the file stays as the first run left
    it. *)
Theorem main_once_and_again (now now' : Z) :
  ∃ db,
    main now None = Some db
    ∧ users db
        = {[ 1 := Users.mk "Moamen User" "moamen@example.com" "hash123"
                    (Some now) ]}
    ∧ mood_sessions db
        = {[ 1 := MoodSessions.mk 1 4 (Some "tired") (Some "not good")
                    (Some "need rest") 5 (Some now) ]}
    ∧ breathing_sessions db
        = {[ 1 := BreathingSessions.mk 1 (Some 1) 3 (Some now) None 30 ]}
    ∧ user_stats db = {[ 1 := UserStats.mk 30 1 (Some (now / 86400)) ]}
    ∧ breathing_levels db = list_to_map seed_rows
    ∧ init_db (Some db) = (Some db, Ok tt)
    ∧ create_user "Moamen User" "moamen@example.com" "hash123" now' (Some db)
        = (Some db, Raise UniquenessViolation)
    ∧ main now' (Some db) = Some db.
Proof.
  exists (main_db now (UserStats.mk 30 1 (Some (now / 86400)))).
  split.
  { assert (Hcreate :
      create_user "Moamen User" "moamen@example.com" "hash123" now
        (init_db None).1 = (Some (one_user_db now), Ok 1))
      by (vm_compute; reflexivity).
    assert (Hsessions : ∃ db2,
      add_mood_session 1 4 (Some "tired") (Some "not good")
          (Some "need rest") 5 now (Some (one_user_db now))
        = (Some db2, Ok 1)
      ∧ add_breathing_session 1 3 (Some 1) 30 now (Some db2)
        = (Some (main_db now (UserStats.mk 0 0 None)), Ok 1))
      by (eexists; split; vm_compute; reflexivity).
    destruct Hsessions as (db2 & Hmood & Hbreathing).
    unfold main. cbv zeta. rewrite Hcreate. cbv beta iota.
    rewrite Hmood. cbv beta iota. rewrite Hbreathing. cbv beta iota.
    rewrite update_user_stats_eq. unfold main_db.
    cbn [fst users mood_sessions breathing_levels breathing_sessions
         user_stats sqlite_sequence].
    rewrite alter_singleton_eq. unfold SET_user_stats, DATE.
    cbn [UserStats.total_points UserStats.current_streak_days
         UserStats.last_activity_date sql_eq].
    by rewrite Z.add_0_r. }
  do 5 (split; [reflexivity|]).
  generalize (now / 86400). intros today.
  repeat split; vm_compute; reflexivity.
Qed.

(** ** Points *)

(** X18. The file that [update_user_stats] for one user leaves has the
    stats rows of all other users and the other four tables as they were,
    and the same users with a stats row as before. *)
Theorem update_user_stats_others (db : database)
    (user_id added_points now : Z) :
  ∃ db',
    (update_user_stats user_id added_points now (Some db)).1 = Some db'
    ∧ (∀ k, k ≠ user_id → user_stats db' !! k = user_stats db !! k)
    ∧ dom (user_stats db') = dom (user_stats db)
    ∧ users db' = users db
    ∧ mood_sessions db' = mood_sessions db
    ∧ breathing_levels db' = breathing_levels db
    ∧ breathing_sessions db' = breathing_sessions db
    ∧ sqlite_sequence db' = sqlite_sequence db.
Proof.
  eexists. split; [by rewrite update_user_stats_eq|]. reduce_api.
  split; [intros k Hk; by rewrite lookup_alter_ne|].
  split; [|done].
  apply set_eq. intros k. rewrite !elem_of_dom, lookup_alter_is_Some. done.
Qed.





